(** * The calculation core of the command-line calculator

    A shallow embedding of [app/calculation/__init__.py]: the abstract
    [Calculation] class, the [CalculationFactory] registry and the four
    concrete calculation classes, followed by the properties stated for
    them.

    Python values are modelled as follows.
    - [float] is IEEE 754 binary64, the kernel's primitive [float].
    - [str] is [string]; a character stands for a code point below 256.
    - the class attribute [_calculations] (a [dict]) is a [gmap string _].
    - a raised exception is the [Raises] outcome of a state-passing
      computation; the state reached when it is raised is kept. *)

From Stdlib Require Import ZArith String Ascii List Bool.
From Stdlib Require Import DecimalString.
From Stdlib Require Import Floats.PrimFloat Floats.FloatOps Floats.SpecFloat.
From stdpp Require Import gmap strings.

Import ListNotations.
Local Open Scope string_scope.

(** ** Exceptions and computations *)

(** The two exception classes the module raises, with their message. *)
Inductive exn : Type :=
| ValueError (msg : string)
| ZeroDivisionError (msg : string).

Inductive outcome (A : Type) : Type :=
| Returns (v : A)
| Raises (e : exn).
Arguments Returns {A} v.
Arguments Raises {A} e.

(** A computation over a mutable state [S]: it returns or raises, and
    hands back the state as it left it. *)
Definition SE (S A : Type) : Type := S -> outcome A * S.

Definition ret {S A} (v : A) : SE S A := fun s => (Returns v, s).

Definition raise {S A} (e : exn) : SE S A := fun s => (Raises e, s).

Definition bind {S A B} (m : SE S A) (k : A -> SE S B) : SE S B :=
  fun s =>
    match m s with
    | (Returns v, s') => k v s'
    | (Raises e, s') => (Raises e, s')
    end.

Definition get {S} : SE S S := fun s => (Returns s, s).

Definition put {S} (s : S) : SE S unit := fun _ => (Returns tt, s).

Declare Scope py_scope.
Delimit Scope py_scope with py.
Notation "x <- m ;; k" := (bind m (fun x => k))
  (at level 100, m at next level, right associativity) : py_scope.
Notation "m ;;; k" := (bind m (fun _ => k))
  (at level 100, right associativity) : py_scope.
Local Open Scope py_scope.

(** ** Built-in string methods *)

(** [str.lower] on code points below 256: the ASCII capitals and the
    Latin-1 capitals (all of U+00C0..U+00DE but the multiplication sign)
    move up by 32, every other code point is its own lowercase. *)
Definition lower_char (c : ascii) : ascii :=
  let n := N_of_ascii c in
  if ((65 <=? n) && (n <=? 90)
      || (192 <=? n) && (n <=? 222) && negb (n =? 215))%N
  then ascii_of_N (n + 32)
  else c.

Fixpoint lower (s : string) : string :=
  match s with
  | EmptyString => EmptyString
  | String c s' => String (lower_char c) (lower s')
  end.

(** [str.replace(old, new)]: every occurrence of [old], found from the
    left and without overlap, becomes [new].  [skip] counts the
    characters of a matched occurrence still to be dropped. *)
Fixpoint replace_from (old new : string) (skip : nat) (s : string) : string :=
  match s with
  | EmptyString => EmptyString
  | String c s' =>
      match skip with
      | S k => replace_from old new k s'
      | O =>
          if String.prefix old s
          then new +:+ replace_from old new (String.length old - 1) s'
          else String c (replace_from old new O s')
      end
  end.

(** With an empty [old], Python puts [new] before every character and
    at the end. *)
Fixpoint intersperse_all (new s : string) : string :=
  match s with
  | EmptyString => new
  | String c s' => new +:+ String c (intersperse_all new s')
  end.

Definition replace (old new s : string) : string :=
  match old with
  | EmptyString => intersperse_all new s
  | String _ _ => replace_from old new O s
  end.

(** ** [float.__repr__]

    An f-string field [{x}] with [x] a [float] is [format(x, "")], that
    is [repr(x)]: the shortest decimal digit string that reads back as
    [x] (the nearest to [x] among the shortest), laid out in positional
    notation, or in exponent notation when the decimal point falls
    outside the digits by too much. *)

Definition digits_of (d : Z) : string :=
  NilZero.string_of_uint (N.to_uint (Z.to_N d)).

(** The least [t >= t0] with [den <= num * 10 ^ t]. *)
Fixpoint first_scale (fuel : nat) (num den t : Z) : Z :=
  match fuel with
  | O => t
  | S f => if (den <=? num * 10 ^ t)%Z then t
           else first_scale f num den (t + 1)%Z
  end.

(** The [k] with [10 ^ (k - 1) <= num / den < 10 ^ k], for a positive
    binary64 value [num / den]. *)
Definition decimal_exponent (num den : Z) : Z :=
  if (den <=? num)%Z
  then Z.of_nat (String.length (digits_of (num / den)))
  else (1 - first_scale 400 num den 1)%Z.

(** The [n]-digit decimals just below and just above [num / den], as
    integers [d] and [d + 1] in units of [10 ^ (k - n)].  One is kept
    when it lies in the rounding interval [lnum / den .. hnum / den] of
    the float (its ends belong to it when the mantissa is even); when
    both do, the nearer is kept, and the one with an even last digit on
    a tie. *)
Definition candidate (even : bool) (num lnum hnum den k n : Z) : option Z :=
  let up := (10 ^ Z.max 0 (n - k))%Z in
  let dn := (den * 10 ^ Z.max 0 (k - n))%Z in
  let d := (num * up / dn)%Z in
  let r := ((num * up) mod dn)%Z in
  let low_ok :=
    (lnum * up <? d * dn)%Z || even && (lnum * up =? d * dn)%Z in
  let high_ok :=
    ((d + 1) * dn <? hnum * up)%Z || even && ((d + 1) * dn =? hnum * up)%Z in
  match low_ok, high_ok with
  | true, true =>
      if (dn <? 2 * r)%Z || (dn =? 2 * r)%Z && Z.odd d
      then Some (d + 1)%Z else Some d
  | true, false => Some d
  | false, true => Some (d + 1)%Z
  | false, false => None
  end.

(** The first [n] that has a candidate, with the candidate. *)
Fixpoint shortest (fuel : nat) (even : bool)
    (num lnum hnum den k n : Z) : Z * Z :=
  match fuel with
  | O => ((num * 10 ^ Z.max 0 (n - k) / (den * 10 ^ Z.max 0 (k - n)))%Z, n)
  | S f =>
      match candidate even num lnum hnum den k n with
      | Some d => (d, n)
      | None => shortest f even num lnum hnum den k (n + 1)%Z
      end
  end.

Fixpoint strip_zeros (s : string) : string :=
  match s with
  | EmptyString => EmptyString
  | String c s' =>
      match strip_zeros s' with
      | EmptyString => if Ascii.eqb c "0" then EmptyString
                       else String c EmptyString
      | t => String c t
      end
  end.

Fixpoint zeros (n : nat) : string :=
  match n with
  | O => EmptyString
  | S k => String "0" (zeros k)
  end.

(** The layout of [repr]: digits [s] (no trailing zero) of a value
    [0.s * 10 ^ decpt]. *)
Definition layout (s : string) (decpt : Z) : string :=
  let len := Z.of_nat (String.length s) in
  if (decpt <=? -4)%Z || (16 <? decpt)%Z then
    let e := (decpt - 1)%Z in
    let mantissa :=
      match s with
      | String c (String c' rest) => String c ("." +:+ String c' rest)
      | _ => s
      end in
    let ds := digits_of (Z.abs e) in
    mantissa +:+ "e" +:+ (if (e <? 0)%Z then "-" else "+")
      +:+ (if (Z.abs e <? 10)%Z then "0" +:+ ds else ds)
  else if (decpt <=? 0)%Z then
    "0." +:+ zeros (Z.to_nat (- decpt)) +:+ s
  else if (len <=? decpt)%Z then
    s +:+ zeros (Z.to_nat (decpt - len)) +:+ ".0"
  else
    substring 0 (Z.to_nat decpt) s +:+ "."
      +:+ substring (Z.to_nat decpt) (Z.to_nat (len - decpt)) s.

(** The digits of the positive float [m * 2 ^ e].  Everything is
    counted in units of [2 ^ (e - 2)], where the float is [4 * m], the
    float above is [4 * m + 4] and the float below is [4 * m - 4], or
    [4 * m - 2] when [m] is the least normal mantissa. *)
Definition repr_finite (m e : Z) : string :=
  let narrow := (m =? 2 ^ 52)%Z && (-1074 <? e)%Z in
  let up2 := (2 ^ Z.max 0 (e - 2))%Z in
  let den := (2 ^ Z.max 0 (2 - e))%Z in
  let num := (4 * m * up2)%Z in
  let lnum := ((if narrow then 4 * m - 1 else 4 * m - 2) * up2)%Z in
  let hnum := ((4 * m + 2) * up2)%Z in
  let k := decimal_exponent num den in
  let '(d, n) := shortest 17 (Z.even m) num lnum hnum den k 1 in
  let s := digits_of d in
  layout (strip_zeros s) (k + (Z.of_nat (String.length s) - n))%Z.

Definition float_repr (x : float) : string :=
  match Prim2SF x with
  | S754_nan => "nan"
  | S754_infinity s => if s then "-inf" else "inf"
  | S754_zero s => if s then "-0.0" else "0.0"
  | S754_finite s m e =>
      (if s then "-" else "") +:+ repr_finite (Zpos m) e
  end.

(** ** Instances and methods *)

(** The attributes [Calculation.__init__] stores on an instance. *)
Record instance : Type := { self_a : float; self_b : float }.

(** A call into the operation library, with its arguments. *)
Inductive op_call : Type :=
| Call_addition (x y : float)
| Call_subtraction (x y : float)
| Call_multiplication (x y : float)
| Call_division (x y : float).

(** What a method body runs on: the instance it is bound to, and the
    calls it has made into the operation library so far, oldest first. *)
Record frame : Type := { self : instance; calls : list op_call }.

Definition Meth (A : Type) : Type := SE frame A.

Definition get_a : Meth float := fun fr => (Returns (self_a (self fr)), fr).

Definition get_b : Meth float := fun fr => (Returns (self_b (self fr)), fr).

Definition called (c : op_call) : Meth unit :=
  fun fr =>
    (Returns tt, {| self := self fr; calls := (calls fr ++ [c])%list |}).

(** ** The operation library *)

Module Operation.

(** Modelled from the spec: [app/operation], the module that defines
    [Operation], is not among the sources.  Its four static methods are
    pure arithmetic on the two arguments: [addition(a, b) -> a + b],
    [subtraction(a, b) -> a - b], [multiplication(a, b) -> a * b] and
    [division(a, b) -> a / b], the last with no guard of its own, so
    that a zero divisor gets what Python's [/] on floats does with it.
    Each records that it was called. *)
Definition addition (x y : float) : Meth float :=
  called (Call_addition x y) ;;; ret (x + y)%float.

Definition subtraction (x y : float) : Meth float :=
  called (Call_subtraction x y) ;;; ret (x - y)%float.

Definition multiplication (x y : float) : Meth float :=
  called (Call_multiplication x y) ;;; ret (x * y)%float.

Definition division (x y : float) : Meth float :=
  called (Call_division x y) ;;;
  if (y =? 0)%float
  then raise (ZeroDivisionError "float division by zero")
  else ret (x / y)%float.

End Operation.

(** ** Calculation classes *)

(** A concrete subclass of [Calculation]: its [__name__] and the
    [execute] it implements.  [__init__], [__str__] and [__repr__] are
    inherited unchanged by every subclass of the module. *)
Record calc_class : Type :=
  { class_name : string; class_execute : Meth float }.

(** A calculation entity: an instance together with its class. *)
Record Calculation : Type :=
  { calc_type : calc_class; calc_self : instance }.

Module CalculationBase.

(** [Calculation.__init__]: the two operands are stored as given. *)
Definition __init__ (a b : float) : instance :=
  {| self_a := a; self_b := b |}.

(** [Calculation.__str__]: [execute] runs first, then the text is put
    together from the class name and the stored operands. *)
Definition __str__ (cls : calc_class) : Meth string :=
  result <- class_execute cls ;;
  let operation_name := replace "Calculation" "" (class_name cls) in
  a <- get_a ;;
  b <- get_b ;;
  ret (class_name cls +:+ ": " +:+ float_repr a +:+ " " +:+ operation_name
         +:+ " " +:+ float_repr b +:+ " = " +:+ float_repr result).

(** [Calculation.__repr__]: no call to [execute]. *)
Definition __repr__ (cls : calc_class) : Meth string :=
  a <- get_a ;;
  b <- get_b ;;
  ret (class_name cls +:+ "(a=" +:+ float_repr a +:+ ", b="
         +:+ float_repr b +:+ ")").

End CalculationBase.

(** [cls(a, b)]: a new instance, initialised by the inherited
    [__init__]. *)
Definition instantiate (cls : calc_class) (a b : float) : Calculation :=
  {| calc_type := cls; calc_self := CalculationBase.__init__ a b |}.

(** A method call [c.m()] made when the operation library has been
    called [log] so far: the value or the exception, the entity after the
    call, and the calls made up to then. *)
Definition call_method {A} (m : calc_class -> Meth A) (c : Calculation)
    (log : list op_call) : outcome A * Calculation * list op_call :=
  let '(r, fr) := m (calc_type c) {| self := calc_self c; calls := log |} in
  (r, {| calc_type := calc_type c; calc_self := self fr |}, calls fr).

Definition execute : calc_class -> Meth float := class_execute.

Definition AddCalculation : calc_class :=
  {| class_name := "AddCalculation";
     class_execute :=
       a <- get_a ;; b <- get_b ;; Operation.addition a b |}.

Definition SubtractCalculation : calc_class :=
  {| class_name := "SubtractCalculation";
     class_execute :=
       a <- get_a ;; b <- get_b ;; Operation.subtraction a b |}.

Definition MultiplyCalculation : calc_class :=
  {| class_name := "MultiplyCalculation";
     class_execute :=
       a <- get_a ;; b <- get_b ;; Operation.multiplication a b |}.

(** [self.b == 0] compares a float with the integer zero: it holds of
    both zeros of binary64 and of no other float. *)
Definition DivideCalculation : calc_class :=
  {| class_name := "DivideCalculation";
     class_execute :=
       b <- get_b ;;
       if (b =? 0)%float
       then raise (ZeroDivisionError "Cannot divide by zero.")
       else a <- get_a ;; b <- get_b ;; Operation.division a b |}.

(** ** The factory *)

Module CalculationFactory.

(** [register_calculation(calculation_type)(subclass)]: the decorator
    applied to a class, run on the [_calculations] dictionary. *)
Definition register_calculation (calculation_type : string)
    (subclass : calc_class) : SE (gmap string calc_class) calc_class :=
  let calculation_type_lower := lower calculation_type in
  _calculations <- get ;;
  match _calculations !! calculation_type_lower with
  | Some _ =>
      raise (ValueError ("Calculation type '" +:+ calculation_type
                           +:+ "' is already registered."))
  | None =>
      put (<[calculation_type_lower := subclass]> _calculations) ;;;
      ret subclass
  end.

(** [dict.get] gives [None] for a missing key, and [not] holds of
    [None] and of no class object. *)
Definition create_calculation (calculation_type : string) (a b : float)
    : SE (gmap string calc_class) Calculation :=
  let calculation_type_lower := lower calculation_type in
  _calculations <- get ;;
  match _calculations !! calculation_type_lower with
  | None =>
      raise (ValueError ("Unsupported calculation type: '"
                           +:+ calculation_type +:+ "'"))
  | Some calculation_class => ret (instantiate calculation_class a b)
  end.

(** The four decorated class definitions, in the order the module
    runs them when it is imported. *)
Definition module_body : SE (gmap string calc_class) unit :=
  register_calculation "add" AddCalculation ;;;
  register_calculation "subtract" SubtractCalculation ;;;
  register_calculation "multiply" MultiplyCalculation ;;;
  register_calculation "divide" DivideCalculation ;;;
  ret tt.

(** [_calculations] once the module is imported: it starts as the
    empty dictionary. *)
Definition _calculations : gmap string calc_class := snd (module_body ∅).

End CalculationFactory.

(** ** Definitions used to state the properties *)

(** The classes the module defines. *)
Definition module_classes : list calc_class :=
  [AddCalculation; SubtractCalculation; MultiplyCalculation;
   DivideCalculation].

(** The text of the two [ValueError]s. *)
Definition unsupported (calculation_type : string) : exn :=
  ValueError ("Unsupported calculation type: '" +:+ calculation_type +:+ "'").

Definition already_registered (calculation_type : string) : exn :=
  ValueError ("Calculation type '" +:+ calculation_type
                +:+ "' is already registered.").

Definition cannot_divide : exn := ZeroDivisionError "Cannot divide by zero.".

(** The name with the suffix taken off its end, when it ends with it:
    the way the specification describes the word between the operands. *)
Definition removesuffix (suffix s : string) : string :=
  let n := String.length s - String.length suffix in
  if String.eqb (substring n (String.length suffix) s) suffix
     && (String.length suffix <=? String.length s)%nat
  then substring 0 n s
  else s.

(** The text the specification gives for a rendered entity. *)
Definition rendered (entity_name : string) (a b result : float) : string :=
  entity_name +:+ ": " +:+ float_repr a +:+ " "
    +:+ removesuffix "Calculation" entity_name +:+ " "
    +:+ float_repr b +:+ " = " +:+ float_repr result.

(** Two renderings of one entity in a row. *)
Definition str_twice (cls : calc_class) : Meth (string * string) :=
  first <- CalculationBase.__str__ cls ;;
  second <- CalculationBase.__str__ cls ;;
  ret (first, second).

(** The dictionaries the decorator can build: the empty one the class
    body starts with, and one more entry for each registration that
    returned. *)
Inductive built : gmap string calc_class -> Prop :=
| built_empty : built ∅
| built_register (reg reg' : gmap string calc_class) (name : string)
    (subclass : calc_class) :
    built reg ->
    CalculationFactory.register_calculation name subclass reg
      = (Returns subclass, reg') ->
    built reg'.

(** ** Properties *)

Import CalculationFactory.

Section Registry.

(** The dictionary the import leaves behind. *)
Lemma imported_calculations :
  _calculations =
    <["divide" := DivideCalculation]>
      (<["multiply" := MultiplyCalculation]>
         (<["subtract" := SubtractCalculation]>
            (<["add" := AddCalculation]> ∅))).
Proof. reflexivity. Qed.

Lemma imported_lookup (key : string) (cls : calc_class) :
  _calculations !! key = Some cls -> In cls module_classes.
Proof.
  rewrite imported_calculations. unfold module_classes.
  rewrite !lookup_insert_Some, lookup_empty.
  intros [[_ <-]|[_ [[_ <-]|[_ [[_ <-]|[_ [[_ <-]|[_ ?]]]]]]]];
    simpl; auto; discriminate.
Qed.

(** [create_calculation] reads the dictionary and leaves it as it is. *)
Lemma create_calculation_spec (reg : gmap string calc_class)
    (name : string) (a b : float) :
  create_calculation name a b reg =
    match reg !! lower name with
    | Some cls => (Returns (instantiate cls a b), reg)
    | None => (Raises (unsupported name), reg)
    end.
Proof.
  unfold create_calculation, bind, get.
  destruct (reg !! lower name); reflexivity.
Qed.

Lemma register_calculation_spec (reg : gmap string calc_class)
    (name : string) (subclass : calc_class) :
  register_calculation name subclass reg =
    match reg !! lower name with
    | Some _ => (Raises (already_registered name), reg)
    | None => (Returns subclass, <[lower name := subclass]> reg)
    end.
Proof.
  unfold register_calculation, bind, get.
  destruct (reg !! lower name); reflexivity.
Qed.

Lemma created_by_module (name : string) (a b : float)
    (c : Calculation) (reg : gmap string calc_class) :
  create_calculation name a b _calculations = (Returns c, reg) ->
  reg = _calculations /\
  exists cls, In cls module_classes /\ c = instantiate cls a b.
Proof.
  rewrite create_calculation_spec.
  destruct (_calculations !! lower name) as [cls|] eqn:E; [|discriminate].
  intros [= <- <-]. split; [reflexivity|].
  exists cls. split; [eapply imported_lookup; eassumption|reflexivity].
Qed.

End Registry.

Section Execution.

(** What [execute] does on an instance of each class of the module. *)
Lemma execute_add (a b : float) (log : list op_call) :
  call_method execute (instantiate AddCalculation a b) log =
    (Returns (a + b)%float, instantiate AddCalculation a b,
     (log ++ [Call_addition a b])%list).
Proof. reflexivity. Qed.

Lemma execute_subtract (a b : float) (log : list op_call) :
  call_method execute (instantiate SubtractCalculation a b) log =
    (Returns (a - b)%float, instantiate SubtractCalculation a b,
     (log ++ [Call_subtraction a b])%list).
Proof. reflexivity. Qed.

Lemma execute_multiply (a b : float) (log : list op_call) :
  call_method execute (instantiate MultiplyCalculation a b) log =
    (Returns (a * b)%float, instantiate MultiplyCalculation a b,
     (log ++ [Call_multiplication a b])%list).
Proof. reflexivity. Qed.

Lemma execute_divide (a b : float) (log : list op_call) :
  call_method execute (instantiate DivideCalculation a b) log =
    if (b =? 0)%float
    then (Raises cannot_divide, instantiate DivideCalculation a b, log)
    else (Returns (a / b)%float, instantiate DivideCalculation a b,
          (log ++ [Call_division a b])%list).
Proof.
  unfold call_method, execute, instantiate; cbn.
  unfold bind, get_b, get_a; cbn.
  destruct (b =? 0)%float eqn:E; cbn; [reflexivity|].
  unfold Operation.division, bind, called; cbn.
  rewrite E. reflexivity.
Qed.

(** [__str__] hands on what [execute] raises, and otherwise builds the
    text from the stored operands and the result. *)
Lemma str_after_execute (c : Calculation) (log : list op_call) :
  call_method CalculationBase.__str__ c log =
    match call_method execute c log with
    | (Returns r, c', log') =>
        (Returns
           (class_name (calc_type c) +:+ ": "
              +:+ float_repr (self_a (calc_self c')) +:+ " "
              +:+ replace "Calculation" "" (class_name (calc_type c))
              +:+ " " +:+ float_repr (self_b (calc_self c'))
              +:+ " = " +:+ float_repr r),
         c', log')
    | (Raises e, c', log') => (Raises e, c', log')
    end.
Proof.
  unfold call_method, execute, CalculationBase.__str__, bind.
  destruct (class_execute (calc_type c) _) as [[r|e] fr]; reflexivity.
Qed.

Lemma module_class_suffix (cls : calc_class) :
  In cls module_classes ->
  replace "Calculation" "" (class_name cls) =
    removesuffix "Calculation" (class_name cls).
Proof.
  intros [<-|[<-|[<-|[<-|[]]]]]; reflexivity.
Qed.

End Execution.

(** C1: an entity created for "divide" whose second operand is zero
    raises [ZeroDivisionError] from its own check when executed: the
    message is the check's, and the record of calls into the operation
    library is as it was before, so [Operation.division] was not
    reached. *)
Theorem divide_by_zero_raises (a b : float) (log : list op_call) :
  (b =? 0)%float = true ->
  exists c,
    create_calculation "divide" a b _calculations
      = (Returns c, _calculations) /\
    call_method execute c log
      = (Raises (ZeroDivisionError "Cannot divide by zero."), c, log).
Proof.
  intros Hb. exists (instantiate DivideCalculation a b). split.
  - reflexivity.
  - rewrite execute_divide, Hb. reflexivity.
Qed.

Lemma divide_by_zero_raises_witness :
  exists c,
    create_calculation "divide" 1 0 _calculations
      = (Returns c, _calculations) /\
    call_method execute c []
      = (Raises (ZeroDivisionError "Cannot divide by zero."), c, []).
Proof. apply (divide_by_zero_raises 1 0 []). reflexivity. Defined.

(** C2: entities created for "add", "subtract" and "multiply" execute
    to the sum, the difference and the product of their operands, for
    all operands, and never raise. *)
Theorem add_subtract_multiply_execute (a b : float) (log : list op_call) :
  (exists c,
      create_calculation "add" a b _calculations
        = (Returns c, _calculations) /\
      call_method execute c log
        = (Returns (a + b)%float, c,
           (log ++ [Call_addition a b])%list)) /\
  (exists c,
      create_calculation "subtract" a b _calculations
        = (Returns c, _calculations) /\
      call_method execute c log
        = (Returns (a - b)%float, c,
           (log ++ [Call_subtraction a b])%list)) /\
  (exists c,
      create_calculation "multiply" a b _calculations
        = (Returns c, _calculations) /\
      call_method execute c log
        = (Returns (a * b)%float, c,
           (log ++ [Call_multiplication a b])%list)).
Proof.
  repeat split.
  - exists (instantiate AddCalculation a b).
    split; [reflexivity|apply execute_add].
  - exists (instantiate SubtractCalculation a b).
    split; [reflexivity|apply execute_subtract].
  - exists (instantiate MultiplyCalculation a b).
    split; [reflexivity|apply execute_multiply].
Qed.

(** C3: an entity created for "divide" whose second operand does not
    compare equal to zero executes to the quotient of its operands. *)
Theorem divide_execute (a b : float) (log : list op_call) :
  (b =? 0)%float = false ->
  exists c,
    create_calculation "divide" a b _calculations
      = (Returns c, _calculations) /\
    call_method execute c log
      = (Returns (a / b)%float, c, (log ++ [Call_division a b])%list).
Proof.
  intros Hb. exists (instantiate DivideCalculation a b). split.
  - reflexivity.
  - rewrite execute_divide, Hb. reflexivity.
Qed.

Lemma divide_execute_witness :
  exists c,
    create_calculation "divide" 10 2 _calculations
      = (Returns c, _calculations) /\
    call_method execute c []
      = (Returns 5%float, c, [Call_division 10 2]).
Proof. apply (divide_execute 10 2 []). reflexivity. Defined.

(** C4: when the lowercased name is not a key of the dictionary,
    [create_calculation] raises the [ValueError] whose message quotes
    the name as it was given; nothing is returned and the dictionary is
    left as it was. *)
Theorem create_unregistered_raises (reg : gmap string calc_class)
    (name : string) (a b : float) :
  reg !! lower name = None ->
  create_calculation name a b reg =
    (Raises (ValueError ("Unsupported calculation type: '" +:+ name +:+ "'")),
     reg).
Proof.
  intros Hnone. rewrite create_calculation_spec, Hnone. reflexivity.
Qed.

Lemma create_unregistered_raises_witness :
  create_calculation "power" 2 3 _calculations =
    (Raises (ValueError "Unsupported calculation type: 'power'"),
     _calculations).
Proof.
  apply (create_unregistered_raises _calculations "power" 2 3). reflexivity.
Defined.

(** C5: registering under a name whose lowercase is already a key
    raises the [ValueError] for a duplicate and leaves the dictionary as
    it was: the key still maps to the class registered first, and
    [create_calculation] for that name still instantiates that class. *)
Theorem register_duplicate_raises (reg : gmap string calc_class)
    (name : string) (subclass original : calc_class) :
  reg !! lower name = Some original ->
  register_calculation name subclass reg =
    (Raises (ValueError ("Calculation type '" +:+ name
                           +:+ "' is already registered.")), reg) /\
  snd (register_calculation name subclass reg) !! lower name
    = Some original /\
  forall a b,
    create_calculation name a b (snd (register_calculation name subclass reg))
      = (Returns (instantiate original a b), reg).
Proof.
  intros Hsome.
  rewrite register_calculation_spec, Hsome. cbn [snd].
  split; [reflexivity|]. split; [assumption|].
  intros a b. rewrite create_calculation_spec, Hsome. reflexivity.
Qed.

Lemma register_duplicate_raises_witness :
  register_calculation "Add" DivideCalculation _calculations =
    (Raises (ValueError "Calculation type 'Add' is already registered."),
     _calculations) /\
  snd (register_calculation "Add" DivideCalculation _calculations)
    !! lower "Add" = Some AddCalculation /\
  forall a b,
    create_calculation "Add" a b
      (snd (register_calculation "Add" DivideCalculation _calculations))
      = (Returns (instantiate AddCalculation a b), _calculations).
Proof.
  apply (register_duplicate_raises _calculations "Add" DivideCalculation
           AddCalculation).
  reflexivity.
Defined.

(** C6, as stated: two spellings of one name that differ in case do not
    always behave identically.  For a name that is not registered the
    two calls raise [ValueError]s with different messages, since each
    message quotes the name as that call spelled it. *)
Lemma create_case_variants_differ :
  lower "POWER" = lower "power" /\
  create_calculation "POWER" 2 3 _calculations
    <> create_calculation "power" 2 3 _calculations.
Proof.
  split; [reflexivity|].
  rewrite !create_calculation_spec.
  change (_calculations !! lower "POWER") with (@None calc_class).
  change (_calculations !! lower "power") with (@None calc_class).
  unfold unsupported. intros [= Hmsg].
Qed.

(** C6, amended: two names with the same lowercase either both create
    an entity of the same class with the same operands, or both raise
    the [ValueError] for an unsupported type, each with the name as it
    was spelled in that call. *)
Theorem create_case_insensitive (reg : gmap string calc_class)
    (name variant : string) (a b : float) :
  lower variant = lower name ->
  (exists cls,
      create_calculation name a b reg
        = (Returns (instantiate cls a b), reg) /\
      create_calculation variant a b reg
        = (Returns (instantiate cls a b), reg)) \/
  (create_calculation name a b reg
     = (Raises (ValueError ("Unsupported calculation type: '" +:+ name
                              +:+ "'")), reg) /\
   create_calculation variant a b reg
     = (Raises (ValueError ("Unsupported calculation type: '" +:+ variant
                              +:+ "'")), reg)).
Proof.
  intros Hlower. rewrite !create_calculation_spec, Hlower.
  destruct (reg !! lower name) as [cls|].
  - left. exists cls. split; reflexivity.
  - right. split; reflexivity.
Qed.

Lemma create_case_insensitive_witness :
  (exists cls,
      create_calculation "add" 2 3 _calculations
        = (Returns (instantiate cls 2 3), _calculations) /\
      create_calculation "ADD" 2 3 _calculations
        = (Returns (instantiate cls 2 3), _calculations)) \/
  (create_calculation "add" 2 3 _calculations
     = (Raises (ValueError "Unsupported calculation type: 'add'"),
        _calculations) /\
   create_calculation "ADD" 2 3 _calculations
     = (Raises (ValueError "Unsupported calculation type: 'ADD'"),
        _calculations)).
Proof.
  apply (create_case_insensitive _calculations "add" "ADD" 2 3). reflexivity.
Defined.

Section Rendering.

(** [execute] of a class of the module reads the operands and stores
    nothing. *)
Lemma execute_keeps_self (cls : calc_class) (a b : float)
    (log : list op_call) :
  In cls module_classes ->
  snd (fst (call_method execute (instantiate cls a b) log))
    = instantiate cls a b.
Proof.
  intros [<-|[<-|[<-|[<-|[]]]]].
  - rewrite execute_add. reflexivity.
  - rewrite execute_subtract. reflexivity.
  - rewrite execute_multiply. reflexivity.
  - rewrite execute_divide. destruct (b =? 0)%float; reflexivity.
Qed.

(** What [execute] of a class of the module returns does not depend
    on the calls made before. *)
Lemma execute_any_log (cls : calc_class) (a b r : float)
    (c' : Calculation) (log log' log1 : list op_call) :
  In cls module_classes ->
  call_method execute (instantiate cls a b) log = (Returns r, c', log') ->
  exists log2,
    call_method execute (instantiate cls a b) log1
      = (Returns r, instantiate cls a b, log2).
Proof.
  intros [<-|[<-|[<-|[<-|[]]]]].
  - rewrite !execute_add. intros [= <- _ _]. eauto.
  - rewrite !execute_subtract. intros [= <- _ _]. eauto.
  - rewrite !execute_multiply. intros [= <- _ _]. eauto.
  - rewrite !execute_divide.
    destruct (b =? 0)%float; [discriminate|]. intros [= <- _ _]. eauto.
Qed.

(** The rendering of an instance of a class of the module whose
    execution returns. *)
Lemma str_of_module_class (cls : calc_class) (a b r : float)
    (c' : Calculation) (log log' : list op_call) :
  In cls module_classes ->
  call_method execute (instantiate cls a b) log = (Returns r, c', log') ->
  call_method CalculationBase.__str__ (instantiate cls a b) log
    = (Returns (rendered (class_name cls) a b r),
       instantiate cls a b, log').
Proof.
  intros Hcls Hexec.
  pose proof (execute_keeps_self cls a b log Hcls) as Hself.
  rewrite Hexec in Hself; cbn [fst snd] in Hself; subst c'.
  rewrite str_after_execute, Hexec.
  unfold instantiate, CalculationBase.__init__.
  cbn [calc_type calc_self self_a self_b].
  rewrite (module_class_suffix cls Hcls). reflexivity.
Qed.

(** Two renderings in a row are two calls of [__str__], the second
    on the entity as the first left it. *)
Lemma str_twice_unfold (c : Calculation) (log : list op_call) :
  call_method str_twice c log =
    match call_method CalculationBase.__str__ c log with
    | (Returns s1, c1, log1) =>
        match call_method CalculationBase.__str__ c1 log1 with
        | (Returns s2, c2, log2) => (Returns (s1, s2), c2, log2)
        | (Raises e, c2, log2) => (Raises e, c2, log2)
        end
    | (Raises e, c1, log1) => (Raises e, c1, log1)
    end.
Proof.
  unfold call_method, str_twice, bind.
  destruct (CalculationBase.__str__ (calc_type c) _) as [[s1|e] [slf cs]];
    cbn [calc_type calc_self self calls]; [|reflexivity].
  destruct (CalculationBase.__str__ (calc_type c) _) as [[s2|e] [slf2 cs2]];
    reflexivity.
Qed.

End Rendering.

(** C7: for an entity of one of the module's classes whose execution
    returns, the rendering is the class name, a colon, the first operand,
    the class name without its "Calculation" suffix, the second operand,
    an equals sign and the result, and the entity is left as it was; the
    entity created for "add" with 2.0 and 3.0 renders as
    "AddCalculation: 2.0 Add 3.0 = 5.0". *)
Theorem str_format :
  (forall (c c' : Calculation) (r : float) (log log' : list op_call),
      In (calc_type c) module_classes ->
      call_method execute c log = (Returns r, c', log') ->
      call_method CalculationBase.__str__ c log
        = (Returns
             (class_name (calc_type c) +:+ ": "
                +:+ float_repr (self_a (calc_self c)) +:+ " "
                +:+ removesuffix "Calculation" (class_name (calc_type c))
                +:+ " " +:+ float_repr (self_b (calc_self c))
                +:+ " = " +:+ float_repr r),
           c, log')) /\
  (exists c,
      create_calculation "add" 2 3 _calculations
        = (Returns c, _calculations) /\
      call_method CalculationBase.__str__ c []
        = (Returns "AddCalculation: 2.0 Add 3.0 = 5.0", c,
           [Call_addition 2 3])).
Proof.
  split.
  - intros [cls [a b]] c' r log log' Hcls Hexec.
    apply (str_of_module_class cls a b r c' log log' Hcls Hexec).
  - exists (instantiate AddCalculation 2 3). split; reflexivity.
Qed.

Lemma str_format_witness :
  call_method CalculationBase.__str__ (instantiate DivideCalculation 10 2) []
    = (Returns "DivideCalculation: 10.0 Divide 2.0 = 5.0",
       instantiate DivideCalculation 10 2, [Call_division 10 2]).
Proof.
  apply (proj1 str_format (instantiate DivideCalculation 10 2)
           (instantiate DivideCalculation 10 2) 5%float []
           [Call_division 10 2]).
  - do 3 right. left. reflexivity.
  - reflexivity.
Defined.

(** C8: rendering a divide entity whose second operand is zero raises
    the very [ZeroDivisionError] that executing it raises, and returns no
    text. *)
Theorem str_divide_by_zero_raises (c : Calculation) (log : list op_call) :
  calc_type c = DivideCalculation ->
  (self_b (calc_self c) =? 0)%float = true ->
  call_method execute c log
    = (Raises (ZeroDivisionError "Cannot divide by zero."), c, log) /\
  call_method CalculationBase.__str__ c log
    = (Raises (ZeroDivisionError "Cannot divide by zero."), c, log).
Proof.
  destruct c as [cls [a b]]; cbn [calc_type calc_self self_b].
  intros -> Hb.
  assert (call_method execute (instantiate DivideCalculation a b) log
          = (Raises cannot_divide, instantiate DivideCalculation a b, log))
    as Hexec by (rewrite execute_divide, Hb; reflexivity).
  split; [exact Hexec|].
  change {| calc_type := DivideCalculation;
            calc_self := {| self_a := a; self_b := b |} |}
    with (instantiate DivideCalculation a b).
  rewrite str_after_execute, Hexec. reflexivity.
Qed.

Lemma str_divide_by_zero_raises_witness :
  call_method execute (instantiate DivideCalculation 1 0) []
    = (Raises (ZeroDivisionError "Cannot divide by zero."),
       instantiate DivideCalculation 1 0, []) /\
  call_method CalculationBase.__str__ (instantiate DivideCalculation 1 0) []
    = (Raises (ZeroDivisionError "Cannot divide by zero."),
       instantiate DivideCalculation 1 0, []).
Proof.
  apply (str_divide_by_zero_raises (instantiate DivideCalculation 1 0) []);
    reflexivity.
Defined.

(** C9: rendering an entity whose execution returns gives a text and
    leaves the entity as it was; rendering it once more right after
    gives the same text and again leaves the stored operands alone. *)
Theorem str_twice_same (c c' : Calculation) (r : float)
    (log log' : list op_call) :
  In (calc_type c) module_classes ->
  call_method execute c log = (Returns r, c', log') ->
  exists s log1 log2,
    call_method CalculationBase.__str__ c log = (Returns s, c, log1) /\
    call_method CalculationBase.__str__ c log1 = (Returns s, c, log2) /\
    call_method str_twice c log = (Returns (s, s), c, log2).
Proof.
  destruct c as [cls [a b]]; cbn [calc_type].
  change {| calc_type := cls; calc_self := {| self_a := a; self_b := b |} |}
    with (instantiate cls a b).
  intros Hcls Hexec.
  destruct (execute_any_log cls a b r c' log log' log' Hcls Hexec)
    as [log2 Hexec2].
  pose proof (str_of_module_class cls a b r c' log log' Hcls Hexec) as Hstr.
  pose proof (str_of_module_class cls a b r _ log' log2 Hcls Hexec2) as Hstr2.
  exists (rendered (class_name cls) a b r), log', log2.
  split; [exact Hstr|]. split; [exact Hstr2|].
  rewrite str_twice_unfold, Hstr, Hstr2. reflexivity.
Qed.

Lemma str_twice_same_witness :
  exists s log1 log2,
    call_method CalculationBase.__str__ (instantiate AddCalculation 2 3) []
      = (Returns s, instantiate AddCalculation 2 3, log1) /\
    call_method CalculationBase.__str__ (instantiate AddCalculation 2 3) log1
      = (Returns s, instantiate AddCalculation 2 3, log2) /\
    call_method str_twice (instantiate AddCalculation 2 3) []
      = (Returns (s, s), instantiate AddCalculation 2 3, log2).
Proof.
  apply (str_twice_same (instantiate AddCalculation 2 3)
           (instantiate AddCalculation 2 3) 5%float [] [Call_addition 2 3]).
  - left. reflexivity.
  - reflexivity.
Defined.

(** C10: the zero check of the divide entity holds of the negative zero
    as well, a float distinct from the positive zero: with it as second
    operand, executing the entity created for "divide" raises the
    check's [ZeroDivisionError] before [Operation.division] is
    reached. *)
Theorem divide_by_negative_zero_raises (a : float) (log : list op_call) :
  Prim2SF (-0)%float = S754_zero true /\
  Prim2SF 0%float = S754_zero false /\
  exists c,
    create_calculation "divide" a (-0)%float _calculations
      = (Returns c, _calculations) /\
    call_method execute c log
      = (Raises (ZeroDivisionError "Cannot divide by zero."), c, log).
Proof.
  split; [reflexivity|]. split; [reflexivity|].
  exists (instantiate DivideCalculation a (-0)%float). split.
  - reflexivity.
  - rewrite execute_divide. reflexivity.
Qed.

(** ** Further properties of the factory and of the base class *)

Section Lowercase.

Lemma lower_char_idempotent (c : ascii) :
  lower_char (lower_char c) = lower_char c.
Proof. destruct c as [[] [] [] [] [] [] [] []]; reflexivity. Qed.

(** A lowercased name is its own lowercase. *)
Lemma lower_idempotent (s : string) : lower (lower s) = lower s.
Proof.
  induction s as [|c s IH]; cbn [lower]; [reflexivity|].
  rewrite lower_char_idempotent, IH. reflexivity.
Qed.

(** A registration that returns adds its entry under a lowercase key. *)
Lemma register_keeps_keys_lowercase (reg reg' : gmap string calc_class)
    (name : string) (subclass : calc_class) :
  (forall key cls, reg !! key = Some cls -> lower key = key) ->
  register_calculation name subclass reg = (Returns subclass, reg') ->
  forall key cls, reg' !! key = Some cls -> lower key = key.
Proof.
  intros Hkeys. rewrite register_calculation_spec.
  destruct (reg !! lower name); [discriminate|].
  intros [= <-] key cls. rewrite lookup_insert_Some.
  intros [[<- _]|[_ Hkey]]; [apply lower_idempotent|eauto].
Qed.

Lemma built_keys_lowercase (reg : gmap string calc_class) :
  built reg -> forall key cls, reg !! key = Some cls -> lower key = key.
Proof.
  induction 1 as [|reg reg' name subclass _ IH Hreg].
  - intros key cls. rewrite lookup_empty. discriminate.
  - eapply register_keeps_keys_lowercase; eassumption.
Qed.

(** The import builds its dictionary with the decorator alone. *)
Lemma built_imported : built _calculations.
Proof.
  eapply (built_register _ _ "divide" DivideCalculation).
  eapply (built_register _ _ "multiply" MultiplyCalculation).
  eapply (built_register _ _ "subtract" SubtractCalculation).
  eapply (built_register _ _ "add" AddCalculation).
  - apply built_empty.
  - reflexivity.
  - reflexivity.
  - reflexivity.
  - reflexivity.
Qed.

End Lowercase.

(** X1: whatever class a name is registered under, the entity
    [create_calculation] returns for it shows, through [__repr__], the
    class name and the two operands exactly as they were passed;
    [__repr__] returns without a call into the operation library and
    leaves the entity as it was, whether or not [execute] would raise. *)
Theorem repr_of_created (reg : gmap string calc_class) (name : string)
    (cls : calc_class) (a b : float) (log : list op_call) :
  reg !! lower name = Some cls ->
  exists c,
    create_calculation name a b reg = (Returns c, reg) /\
    call_method CalculationBase.__repr__ c log
      = (Returns (class_name cls +:+ "(a=" +:+ float_repr a +:+ ", b="
                    +:+ float_repr b +:+ ")"), c, log).
Proof.
  intros Hcls. exists (instantiate cls a b). split.
  - rewrite create_calculation_spec, Hcls. reflexivity.
  - reflexivity.
Qed.

Lemma repr_of_created_witness :
  exists c,
    create_calculation "Divide" 1 0 _calculations
      = (Returns c, _calculations) /\
    call_method CalculationBase.__repr__ c []
      = (Returns "DivideCalculation(a=1.0, b=0.0)", c, []).
Proof.
  apply (repr_of_created _calculations "Divide" DivideCalculation 1 0 []).
  reflexivity.
Defined.

(** X2: registering a class under a name whose lowercase is not yet a
    key returns that class, and from then on [create_calculation], given
    that name in any mix of cases, instantiates it with the operands. *)
Theorem register_then_create (reg : gmap string calc_class)
    (name variant : string) (subclass : calc_class) (a b : float) :
  reg !! lower name = None ->
  lower variant = lower name ->
  exists reg',
    register_calculation name subclass reg = (Returns subclass, reg') /\
    create_calculation variant a b reg'
      = (Returns (instantiate subclass a b), reg').
Proof.
  intros Hnone Hvariant. exists (<[lower name := subclass]> reg). split.
  - rewrite register_calculation_spec, Hnone. reflexivity.
  - rewrite create_calculation_spec, Hvariant, lookup_insert_eq. reflexivity.
Qed.

Lemma register_then_create_witness :
  exists reg',
    register_calculation "Power" MultiplyCalculation _calculations
      = (Returns MultiplyCalculation, reg') /\
    create_calculation "POWER" 2 3 reg'
      = (Returns (instantiate MultiplyCalculation 2 3), reg').
Proof.
  apply (register_then_create _calculations "Power" "POWER"
           MultiplyCalculation 2 3); reflexivity.
Defined.

(** X3: a call of the decorator, whether it returns or raises, changes
    nothing for names with another lowercase: [create_calculation]
    returns or raises for them as it did before the call. *)
Theorem register_keeps_other_names (reg : gmap string calc_class)
    (name other : string) (subclass : calc_class) (a b : float) :
  lower other <> lower name ->
  fst (create_calculation other a b
         (snd (register_calculation name subclass reg)))
    = fst (create_calculation other a b reg).
Proof.
  intros Hother. rewrite register_calculation_spec, !create_calculation_spec.
  destruct (reg !! lower name); cbn [snd]; [reflexivity|].
  rewrite lookup_insert_ne by congruence.
  destruct (reg !! lower other); reflexivity.
Qed.

Lemma register_keeps_other_names_witness :
  fst (create_calculation "add" 2 3
         (snd (register_calculation "Power" MultiplyCalculation
                 _calculations)))
    = fst (create_calculation "add" 2 3 _calculations).
Proof.
  apply (register_keeps_other_names _calculations "Power" "add"
           MultiplyCalculation 2 3).
  vm_compute. discriminate.
Defined.

(** X4: two registrations in a row under names with the same lowercase:
    the first returns, the second raises the [ValueError] for a
    duplicate, quoting the name as the second spelled it, and the
    dictionary holds the class of the first. *)
Theorem register_twice_raises (reg : gmap string calc_class)
    (name variant : string) (first second : calc_class) :
  reg !! lower name = None ->
  lower variant = lower name ->
  (register_calculation name first ;;;
   register_calculation variant second) reg
    = (Raises (ValueError ("Calculation type '" +:+ variant
                             +:+ "' is already registered.")),
       <[lower name := first]> reg).
Proof.
  intros Hnone Hvariant. unfold bind at 1.
  rewrite register_calculation_spec, Hnone.
  rewrite register_calculation_spec, Hvariant, lookup_insert_eq.
  reflexivity.
Qed.

Lemma register_twice_raises_witness :
  (register_calculation "power" AddCalculation ;;;
   register_calculation "Power" DivideCalculation) _calculations
    = (Raises (ValueError "Calculation type 'Power' is already registered."),
       <["power" := AddCalculation]> _calculations).
Proof.
  apply (register_twice_raises _calculations "power" "Power" AddCalculation
           DivideCalculation); reflexivity.
Defined.

(** X5: the decorator never removes or replaces an entry: a key that
    maps to a class before a call maps to the same class after it,
    whether the call returns or raises. *)
Theorem register_keeps_entries (reg : gmap string calc_class)
    (name key : string) (subclass cls : calc_class) :
  reg !! key = Some cls ->
  snd (register_calculation name subclass reg) !! key = Some cls.
Proof.
  intros Hkey. rewrite register_calculation_spec.
  destruct (reg !! lower name) as [old|] eqn:Hname; cbn [snd];
    [assumption|].
  rewrite lookup_insert_ne; [assumption|]. intros <-. congruence.
Qed.

Lemma register_keeps_entries_witness :
  snd (register_calculation "ADD" DivideCalculation _calculations) !! "add"
    = Some AddCalculation.
Proof.
  apply (register_keeps_entries _calculations "ADD" "add" DivideCalculation
           AddCalculation).
  reflexivity.
Defined.

(** X6: on the dictionary the import leaves, [create_calculation]
    depends on the lowercase of the name alone: "add", "subtract",
    "multiply" and "divide" give an instance of the matching class with
    the operands as passed, every other name raises the [ValueError] for
    an unsupported type; the dictionary is never changed. *)
Theorem create_on_import (name : string) (a b : float) :
  create_calculation name a b _calculations =
    (if String.eqb (lower name) "add"
     then Returns (instantiate AddCalculation a b)
     else if String.eqb (lower name) "subtract"
     then Returns (instantiate SubtractCalculation a b)
     else if String.eqb (lower name) "multiply"
     then Returns (instantiate MultiplyCalculation a b)
     else if String.eqb (lower name) "divide"
     then Returns (instantiate DivideCalculation a b)
     else Raises (ValueError ("Unsupported calculation type: '" +:+ name
                                +:+ "'")),
     _calculations).
Proof.
  rewrite create_calculation_spec, imported_calculations.
  destruct (String.eqb_spec (lower name) "add") as [->|Hadd];
    [reflexivity|].
  destruct (String.eqb_spec (lower name) "subtract") as [->|Hsub];
    [reflexivity|].
  destruct (String.eqb_spec (lower name) "multiply") as [->|Hmul];
    [reflexivity|].
  destruct (String.eqb_spec (lower name) "divide") as [->|Hdiv];
    [reflexivity|].
  rewrite !lookup_insert_ne by congruence.
  rewrite lookup_empty. reflexivity.
Qed.

(** X7: for an entity of any class, registered by the module or by a
    caller, [__str__] raises an exception exactly when [execute] raises
    it, and then leaves the same entity and the same record of calls
    behind: it adds no failure of its own and hides none. *)
Theorem str_raises_iff_execute_raises (c c' : Calculation) (e : exn)
    (log log' : list op_call) :
  call_method CalculationBase.__str__ c log = (Raises e, c', log')
  <-> call_method execute c log = (Raises e, c', log').
Proof.
  rewrite str_after_execute.
  destruct (call_method execute c log) as [[[r|e1] c1] log1].
  - split; discriminate.
  - split; intros [= -> -> ->]; reflexivity.
Qed.

(** X8: in a dictionary built by registrations alone, every key is
    lowercase, and so every entry can be reached: [create_calculation]
    given the key instantiates the class stored under it. *)
Theorem built_entries_creatable (reg : gmap string calc_class)
    (key : string) (cls : calc_class) (a b : float) :
  built reg ->
  reg !! key = Some cls ->
  lower key = key /\
  create_calculation key a b reg = (Returns (instantiate cls a b), reg).
Proof.
  intros Hbuilt Hkey.
  pose proof (built_keys_lowercase reg Hbuilt key cls Hkey) as Hlower.
  split; [exact Hlower|].
  rewrite create_calculation_spec, Hlower, Hkey. reflexivity.
Qed.

Lemma built_entries_creatable_witness :
  lower "divide" = "divide" /\
  create_calculation "divide" 10 2 _calculations
    = (Returns (instantiate DivideCalculation 10 2), _calculations).
Proof.
  apply (built_entries_creatable _calculations "divide" DivideCalculation
           10 2).
  - exact built_imported.
  - reflexivity.
Defined.

(** X9: [DivideCalculation.execute] hands [Operation.division] no
    divisor that compares equal to zero: a division call on record after
    [execute] was either there before, or is the one call made with the
    stored operands, the second of them not zero. *)
Theorem divide_calls_division_with_nonzero (a b x y : float)
    (log : list op_call) :
  In (Call_division x y)
     (snd (call_method execute (instantiate DivideCalculation a b) log)) ->
  In (Call_division x y) log \/
  (x = a /\ y = b /\ (y =? 0)%float = false).
Proof.
  rewrite execute_divide.
  destruct (b =? 0)%float eqn:Hb; cbn [snd]; [auto|].
  intros Hin. apply in_app_or in Hin as [Hin|[[= <- <-]|[]]]; auto.
Qed.

Lemma divide_calls_division_with_nonzero_witness :
  In (Call_division 10 2) [] \/
  (10 = 10 /\ 2 = 2 /\ (2 =? 0) = false)%float.
Proof.
  apply (divide_calls_division_with_nonzero 10 2 10 2 []).
  left. reflexivity.
Defined.

(** X10: [execute] of a class of the module stores nothing: after the
    call, returned or raised, the entity holds the class and the two
    operands it held before. *)
Theorem execute_leaves_entity (c : Calculation) (log : list op_call) :
  In (calc_type c) module_classes ->
  snd (fst (call_method execute c log)) = c.
Proof.
  destruct c as [cls [a b]]; cbn [calc_type]. intros Hcls.
  apply (execute_keeps_self cls a b log Hcls).
Qed.

Lemma execute_leaves_entity_witness :
  snd (fst (call_method execute (instantiate DivideCalculation 1 0) []))
    = instantiate DivideCalculation 1 0.
Proof.
  apply (execute_leaves_entity (instantiate DivideCalculation 1 0) []).
  do 3 right. left. reflexivity.
Defined.
